(** * setup.py: a static file server on top of http.server / socketserver

    The script parses an optional port from the command line, changes the
    working directory to the directory of the script, binds a
    [socketserver.TCPServer] and serves requests with a subclass of
    [http.server.SimpleHTTPRequestHandler] that prints the requested path.

    The embedding is an exception-and-trace monad over a small world
    (working directory, listening socket, ordered trace of observable
    effects).  Everything the script gets from the Python runtime and the
    operating system is collected in the record [platform]. *)

From Stdlib Require Import String List ZArith Lia Bool Ascii DecimalString.
From Stdlib Require DecimalZ DecimalPos.
From Stdlib.Strings Require Import Byte.
Import ListNotations.

Open Scope string_scope.
Open Scope Z_scope.

(** ** Python values the script manipulates *)

(** The exception classes the script can meet.  [OSError] carries [str(e)],
    the text printed after "Details: ". *)
Inductive exn : Type :=
| ValueError (msg : string)
| OSError (detail : string)
| OverflowError (msg : string)
| KeyboardInterrupt.

(** HTTP request methods: the two the file handler implements, and the rest. *)
Inductive method : Type :=
| GET
| HEAD
| OtherMethod (name : string).

(** An absolute file-system path is the list of its components below "/". *)
Definition abspath : Type := list string.

(** What the server process finds at a path. *)
Inductive node : Type :=
| File (content : list byte)
| Dir.

(** An HTTP response: the status, the two headers the file handler
    computes from the file, and the body.  The other headers (Server, Date,
    Last-Modified, Location, Connection) are left out. *)
Record response : Type := mkResponse {
  status : Z;
  content_type : option string;
  content_length : option Z;
  body : list byte
}.

(** Observable effects, in the order the process performs them. *)
Inductive event : Type :=
| Stdout (text : string)            (* print(text) *)
| Stderr (text : string)            (* print(text, file=sys.stderr) and sys.stderr.write *)
| Chdir (dir : abspath)             (* os.chdir(dir) *)
| Bind (host : string) (port : Z)   (* socket.bind((host, port)) *)
| Access (target : abspath)         (* the file-system path a request is resolved to *)
| Respond (r : response)            (* response written to the client socket *)
| ServerClose.                      (* TCPServer.server_close() *)

(** What the environment delivers to a listening server. *)
Inductive stimulus : Type :=
| Request (m : method) (path : string)
| Interrupt.

(** The process state the script reads and writes.  [trace] is oldest
    first. *)
Record world : Type := mkWorld {
  cwd : abspath;
  listener : option (string * Z);
  trace : list event
}.

(** The Python runtime and the operating system, as far as the script
    depends on them. *)
Record platform : Type := mkPlatform {
  (* int(s) on a str: None stands for ValueError *)
  py_int : string -> option Z;
  (* os.path.dirname(os.path.abspath(__file__)) *)
  script_dir : abspath;
  (* verdict of the OS on binding a port in 0..65535: None is success,
     Some d is an OSError whose str() is d *)
  os_bind : Z -> option string;
  (* the port the OS picks when asked for port 0 *)
  ephemeral_port : Z;
  (* the files and directories the server process can open *)
  fs : abspath -> option node;
  (* SimpleHTTPRequestHandler.guess_type on the last component *)
  guess_type : list string -> string;
  (* body of the page list_directory generates *)
  listing_page : abspath -> string -> list byte;
  (* body of the page send_error generates *)
  error_page : Z -> string -> list byte;
  (* the line log_request writes: client address, timestamp, request line, code *)
  log_request : method -> string -> Z -> string;
  (* the line log_error writes for send_error(code, message) *)
  log_error : Z -> string -> string;
  (* urllib.parse.unquote(s, errors='surrogatepass') on a string that
     contains '%' *)
  py_unquote : string -> string;
  (* does open() hand the path to the OS?  It does not when it raises
     before that: an embedded NUL, a character the file system encoding
     lacks *)
  fs_accepts : abspath -> bool
}.

(** ** The exception-and-trace monad *)

(** [Blocked]: the computation sits in the accept loop and the environment
    has delivered nothing more; nothing after it runs. *)
Inductive result (A : Type) : Type :=
| Done (a : A)
| Raised (e : exn)
| Blocked.

Arguments Done {A} a.
Arguments Raised {A} e.
Arguments Blocked {A}.

Definition M (A : Type) : Type := world -> result A * world.

Definition ret {A : Type} (a : A) : M A := fun w => (Done a, w).

Definition raise {A : Type} (e : exn) : M A := fun w => (Raised e, w).

Definition bind {A B : Type} (m : M A) (k : A -> M B) : M B :=
  fun w =>
    match m w with
    | (Done a, w') => k a w'
    | (Raised e, w') => (Raised e, w')
    | (Blocked, w') => (Blocked, w')
    end.

Declare Scope py_scope.
Delimit Scope py_scope with py.
Notation "x <- m ;; k" := (bind m (fun x => k))
  (at level 100, m at next level, right associativity) : py_scope.
Notation "m ;; k" := (bind m (fun _ => k))
  (at level 100, right associativity) : py_scope.
Open Scope py_scope.

(** [try: body except ...: handler]: [handler e] is [None] when no except
    clause matches [e]. *)
Definition try_except {A : Type} (body : M A) (handler : exn -> option (M A)) : M A :=
  fun w =>
    match body w with
    | (Raised e, w') =>
        match handler e with
        | Some h => h w'
        | None => (Raised e, w')
        end
    | other => other
    end.

(** The world after the events [evs] have been performed. *)
Definition extend (w : world) (evs : list event) : world :=
  mkWorld (cwd w) (listener w) (trace w ++ evs).

Definition emit (e : event) : M unit :=
  fun w => (Done tt, extend w [e]).

Definition print (text : string) : M unit := emit (Stdout text).

Definition eprint (text : string) : M unit := emit (Stderr text).

(** os.chdir to an absolute directory. *)
Definition chdir (dir : abspath) : M unit :=
  fun w => (Done tt, mkWorld dir (listener w) (trace w ++ [Chdir dir])).

(** str(n) for an int. *)
Definition str (n : Z) : string := NilZero.string_of_int (Z.to_int n).

(** The newline character of the "\nServer stopped." literal. *)
Definition nl : string := String (ascii_of_nat 10) "".

(** ** String helpers used by path translation *)

(** s.split(c) *)
Fixpoint split_on (c : ascii) (s : string) : list string :=
  match s with
  | EmptyString => [""]
  | String a s' =>
      if Ascii.eqb a c then "" :: split_on c s'
      else match split_on c s' with
           | [] => [String a ""]
           | w :: ws => String a w :: ws
           end
  end.

(** s.split(c, 1)[0] *)
Fixpoint before (c : ascii) (s : string) : string :=
  match s with
  | EmptyString => ""
  | String a s' => if Ascii.eqb a c then "" else String a (before c s')
  end.

(** s.endswith(c) *)
Fixpoint ends_with (c : ascii) (s : string) : bool :=
  match s with
  | EmptyString => false
  | String a EmptyString => Ascii.eqb a c
  | String _ s' => ends_with c s'
  end.

(** c in s *)
Fixpoint has_char (c : ascii) (s : string) : bool :=
  match s with
  | EmptyString => false
  | String a s' => Ascii.eqb a c || has_char c s'
  end.

Definition slash : ascii := "/"%char.

(** Walking path components from [base]: empty and "." components stay,
    ".." goes one up and stops at the top, a name goes one down. *)
Fixpoint walk (base : abspath) (words : list string) : abspath :=
  match words with
  | [] => base
  | w :: ws =>
      if (w =? "")%string || (w =? ".")%string then walk base ws
      else if (w =? "..")%string then walk (removelast base) ws
      else walk (base ++ [w])%list ws
  end.

(** The directory a path string denotes for a process whose working
    directory is [wd]. *)
Definition resolve (wd : abspath) (p : string) : abspath :=
  match p with
  | String a _ => if Ascii.eqb a slash then walk [] (split_on slash p)
                  else walk wd (split_on slash p)
  | EmptyString => wd
  end.

(** ** The standard library under the script *)

(** A request handler instance: the attributes the file handler reads. *)
Record handler : Type := mkHandler {
  directory : string;
  command : method;
  path : string
}.

(** The methods a handler class can override; dispatch goes through the
    class of the instance. *)
Record handler_class : Type := mkClass {
  do_GET : handler -> M unit;
  do_HEAD : handler -> M unit
}.

(** A bound TCPServer: the constructor of its request handler class. *)
Record server : Type := mkServer {
  RequestHandlerClass : method -> string -> M unit
}.

(** Module-level names the [__main__] block assigns. *)
Record globals : Type := mkGlobals {
  PORT : Z;
  DIRECTORY : string
}.

Section Library.

Variable P : platform.

(** int(s): ValueError when the text is not an integer literal. *)
Definition int (s : string) : M Z :=
  match py_int P s with
  | Some n => ret n
  | None => raise (ValueError "invalid literal for int() with base 10")
  end.

(** urllib.parse.unquote: a string without '%' is returned as it is, the
    percent escapes of any other are decoded by the library. *)
Definition unquote (s : string) : string :=
  if has_char "%"%char s then py_unquote P s else s.

(** Modelled from the spec: http.server.SimpleHTTPRequestHandler belongs to
    the Python standard library, not to src/; the specification leaves the
    normalisation of request paths to it.  translate_path maps the request
    path to the components below the serving directory and reports a
    trailing slash: query and fragment are dropped, the trailing slash is
    looked for, the rest is unquoted and split at the slashes, "." and
    empty components are skipped, ".." never climbs above the serving
    directory.  The path has no white space, as it comes out of the split
    request line. *)
Definition translate_path (p : string) : list string * bool :=
  let q := before "#"%char (before "?"%char p) in
  (walk [] (split_on slash (unquote q)), ends_with slash q).

(** Status line and headers, no body yet. *)
Definition response_head (code : Z) (ctype : option string) (len : option Z)
  : response :=
  mkResponse code ctype len [].

Definition with_body (r : response) (b : list byte) : response :=
  mkResponse (status r) (content_type r) (content_length r) b.

(** send_response(code): logs the request on stderr. *)
Definition send_response (h : handler) (code : Z) : M unit :=
  eprint (log_request P (command h) (path h) code).

(** send_error(code, message): logs, then answers with a generated page,
    whose body is left out for HEAD. *)
Definition send_error (h : handler) (code : Z) (message : string)
  : M (response * option (list byte)) :=
  eprint (log_error P code message) ;;
  send_response h code ;;
  let page := error_page P code message in
  ret (response_head code (Some "text/html;charset=utf-8")
         (Some (Z.of_nat (length page))),
       match command h with
       | HEAD => None
       | _ => Some page
       end).

(** The 200 answer for a regular file found at [target]. *)
Definition send_file (h : handler) (target : abspath) (content : list byte)
  : M (response * option (list byte)) :=
  send_response h 200 ;;
  ret (response_head 200 (Some (guess_type P target))
         (Some (Z.of_nat (length content))),
       Some content).

(** Modelled from the spec: SimpleHTTPRequestHandler.send_head (standard
    library, not in src/), following the request-handling contract of the
    specification: an existing regular file gives 200 with a content type
    guess and a content length, a directory gives an index file if present
    or a generated listing, anything else gives 404.  Two cases the
    specification leaves to the library follow the library: a directory
    asked for without the final slash is answered with a 301 redirect, a
    regular file asked for with a final slash with 404.  The result is the
    response head and the bytes the caller has to copy after it.  A path
    that open() refuses before it reaches the OS ([fs_accepts] is false:
    an embedded NUL, an unencodable character) makes the library raise
    and send nothing; such requests are outside this definition, and the
    theorems on the status of a response exclude them by hypothesis. *)
Definition send_head (h : handler) : M (response * option (list byte)) :=
  fun w =>
    let '(words, trailing) := translate_path (path h) in
    let target := (resolve (cwd w) (directory h) ++ words)%list in
    (emit (Access target) ;;
     match fs P target with
     | Some Dir =>
         if negb trailing then
           send_response h 301 ;;
           ret (response_head 301 None (Some 0), None)
         else
           match fs P (target ++ ["index.html"])%list with
           | Some (File c) => send_file h (target ++ ["index.html"])%list c
           | _ =>
               match fs P (target ++ ["index.htm"])%list with
               | Some (File c) => send_file h (target ++ ["index.htm"])%list c
               | _ =>
                   let page := listing_page P target (path h) in
                   send_response h 200 ;;
                   ret (response_head 200 (Some "text/html; charset=utf-8")
                          (Some (Z.of_nat (length page))),
                        Some page)
               end
           end
     | Some (File c) =>
         if trailing then send_error h 404 "File not found"
         else send_file h target c
     | None => send_error h 404 "File not found"
     end) w.

(** SimpleHTTPRequestHandler.do_GET: the head, then the copied bytes. *)
Definition SimpleHTTPRequestHandler_do_GET (h : handler) : M unit :=
  hf <- send_head h ;;
  emit (Respond (match snd hf with
                 | Some b => with_body (fst hf) b
                 | None => fst hf
                 end)).

(** SimpleHTTPRequestHandler.do_HEAD: the head only. *)
Definition SimpleHTTPRequestHandler_do_HEAD (h : handler) : M unit :=
  hf <- send_head h ;;
  emit (Respond (fst hf)).

Definition SimpleHTTPRequestHandler : handler_class :=
  mkClass SimpleHTTPRequestHandler_do_GET SimpleHTTPRequestHandler_do_HEAD.

(** SimpleHTTPRequestHandler.__init__(..., directory=d): stores the
    directory and handles the one request, dispatching on the method name
    through the class [cls] of the instance. *)
Definition SimpleHTTPRequestHandler_init (cls : handler_class) (d : string)
  (m : method) (p : string) : M unit :=
  let self := mkHandler d m p in
  match m with
  | GET => do_GET cls self
  | HEAD => do_HEAD cls self
  | OtherMethod name =>
      hf <- send_error self 501 ("Unsupported method ('" ++ name ++ "')") ;;
      emit (Respond (match snd hf with
                     | Some b => with_body (fst hf) b
                     | None => fst hf
                     end))
  end.

(** socketserver.TCPServer((host, port), cls): binds and listens.  A port
    outside 0..65535 is refused by socket.bind with OverflowError before
    the OS is asked; the constructor closes the socket on any failure. *)
Definition TCPServer (host : string) (port : Z)
  (cls : method -> string -> M unit) : M server :=
  emit (Bind host port) ;;
  if (port <? 0) || (65535 <? port) then
    emit ServerClose ;; raise (OverflowError "bind(): port must be 0-65535.")
  else
    match os_bind P port with
    | Some d => emit ServerClose ;; raise (OSError d)
    | None =>
        fun w =>
          (Done (mkServer cls),
           mkWorld (cwd w)
             (Some (host, if port =? 0 then ephemeral_port P else port))
             (trace w))
    end.

(** TCPServer.server_close(), run by __exit__. *)
Definition server_close : M unit :=
  fun w => (Done tt, mkWorld (cwd w) None (trace w ++ [ServerClose])).

(** [with ctor as x: body]: __exit__ runs when the body returns or raises. *)
Definition with_server {A : Type} (ctor : M server) (body : server -> M A) : M A :=
  fun w =>
    match ctor w with
    | (Done httpd, w1) =>
        match body httpd w1 with
        | (Done a, w2) => (Done a, snd (server_close w2))
        | (Raised e, w2) => (Raised e, snd (server_close w2))
        | (Blocked, w2) => (Blocked, w2)
        end
    | (Raised e, w1) => (Raised e, w1)
    | (Blocked, w1) => (Blocked, w1)
    end.

(** httpd.serve_forever() against what the environment delivers: each
    request is handled to completion before the next, an interrupt raises
    KeyboardInterrupt, and with nothing more to read the loop waits. *)
Fixpoint serve_forever (httpd : server) (incoming : list stimulus) : M unit :=
  match incoming with
  | [] => fun w => (Blocked, w)
  | Interrupt :: _ => raise KeyboardInterrupt
  | Request m p :: rest =>
      RequestHandlerClass httpd m p ;; serve_forever httpd rest
  end.

End Library.

(** ** src/setup.py *)

Definition DEFAULT_PORT : Z := 8000.

Definition DEFAULT_DIRECTORY : string := ".".

Section Script.

Variable P : platform.

(** What the environment delivers once the server listens. *)
Variable clients : list stimulus.

(** Handler.do_GET (lines 18-24). *)
Definition Handler_do_GET (h : handler) : M unit :=
  print ("Serving file: " ++ path h) ;;
  do_GET (SimpleHTTPRequestHandler P) h.

(** class Handler(http.server.SimpleHTTPRequestHandler): do_GET is
    overridden, do_HEAD is inherited. *)
Definition Handler : handler_class :=
  mkClass Handler_do_GET (do_HEAD (SimpleHTTPRequestHandler P)).

(** Handler.__init__ (lines 14-16): the directory is the module-level
    DIRECTORY, read when the instance is made. *)
Definition Handler_init (g : globals) (m : method) (p : string) : M unit :=
  SimpleHTTPRequestHandler_init P Handler (DIRECTORY g) m p.

(** run_server (lines 26-44).  [g] holds the module-level names the
    Handler class reads when it is instantiated; [directory] is only
    printed. *)
Definition run_server (g : globals) (port : Z) (directory : string) : M unit :=
  chdir (script_dir P) ;;
  try_except
    (with_server (TCPServer P "" port (Handler_init g)) (fun httpd =>
       print ("Serving files from directory '" ++ directory ++ "'") ;;
       print ("Server started at http://localhost:" ++ str port) ;;
       print "Press Ctrl+C to stop the server." ;;
       serve_forever httpd clients))
    (fun e =>
       match e with
       | OSError d =>
           Some (eprint ("Error: Could not start the server on port " ++ str port
                         ++ ". The port might be in use.") ;;
                 eprint ("Details: " ++ d))
       | KeyboardInterrupt => Some (print (nl ++ "Server stopped."))
       | _ => None
       end).

(** The [__main__] block (lines 46-56), with the two module constants as
    parameters. *)
Definition main_with (default_port : Z) (default_directory : string)
  (argv : list string) : M unit :=
  port <- (if (1 <? length argv)%nat then
             try_except (int P (nth 1 argv ""))
               (fun e =>
                  match e with
                  | ValueError _ =>
                      Some (eprint "Invalid port number provided. Using default port 8000." ;;
                            ret default_port)
                  | _ => None
                  end)
           else ret default_port) ;;
  let g := mkGlobals port default_directory in
  run_server g (PORT g) (DIRECTORY g).

(** The script as shipped. *)
Definition main (argv : list string) : M unit :=
  main_with DEFAULT_PORT DEFAULT_DIRECTORY argv.

End Script.

(** ** Running the script as a process *)

Inductive outcome : Type :=
| Exited (code : Z)          (* the interpreter ran off the end of the script *)
| Crashed (e : exn)          (* an exception reached the top level *)
| StillServing.              (* the process waits in the accept loop *)

Definition initial (caller_cwd : abspath) : world := mkWorld caller_cwd None [].

Definition finish {A : Type} (r : result A) : outcome :=
  match r with
  | Done _ => Exited 0
  | Raised e => Crashed e
  | Blocked => StillServing
  end.

(** python setup.py argv[1:], started in [caller_cwd]. *)
Definition run_script (P : platform) (clients : list stimulus)
  (caller_cwd : abspath) (argv : list string) : outcome * world :=
  let rw := main P clients argv (initial caller_cwd) in
  (finish (fst rw), snd rw).

(** ** Reading a trace *)

Fixpoint stdout_of (t : list event) : list string :=
  match t with
  | [] => []
  | Stdout s :: t' => s :: stdout_of t'
  | _ :: t' => stdout_of t'
  end.

Fixpoint stderr_of (t : list event) : list string :=
  match t with
  | [] => []
  | Stderr s :: t' => s :: stderr_of t'
  | _ :: t' => stderr_of t'
  end.

Fixpoint responses_of (t : list event) : list response :=
  match t with
  | [] => []
  | Respond r :: t' => r :: responses_of t'
  | _ :: t' => responses_of t'
  end.

(** Every file-system access of the trace lies below [root]. *)
Definition served_under (root : abspath) (t : list event) : Prop :=
  forall target, In (Access target) t -> exists words, target = (root ++ words)%list.

(** The characters that stand for themselves in a request path: ASCII
    letters and digits and the four marks - . _ ~ *)
Definition unreserved (c : ascii) : bool :=
  let n := nat_of_ascii c in
  ((65 <=? n) && (n <=? 90) || (97 <=? n) && (n <=? 122)
   || (48 <=? n) && (n <=? 57)
   || (n =? 45) || (n =? 46) || (n =? 95) || (n =? 126))%nat.

Fixpoint all_chars (f : ascii -> bool) (s : string) : bool :=
  match s with
  | EmptyString => true
  | String a s' => f a && all_chars f s'
  end.

(** A file name that can stand in a request path as it is. *)
Definition simple_name (w : string) : bool :=
  negb (w =? "")%string && negb (w =? ".")%string && negb (w =? "..")%string
  && all_chars unreserved w.

(** Reading a decimal numeral, the inverse of [str]. *)
Definition read_decimal (s : string) : option Z :=
  option_map Z.of_int (NilZero.int_of_string s).

(** The request path of the file with components [words] below the root. *)
Fixpoint url_of (words : list string) : string :=
  match words with
  | [] => ""
  | w :: ws => "/" ++ w ++ url_of ws
  end.

(** ** Computations that only append to the trace *)

(** A world with working directory [c] and nothing else. *)
Definition blank (c : abspath) : world := mkWorld c None [].

(** The events a computation performs when started in directory [c]. *)
Definition events_of {A : Type} (m : M A) (c : abspath) : list event :=
  trace (snd (m (blank c))).

(** [m] reads nothing but the working directory and writes nothing but
    new events at the end of the trace. *)
Definition framed {A : Type} (m : M A) : Prop :=
  forall w, m w = (fst (m (blank (cwd w))), extend w (events_of m (cwd w))).

(** ** What a run of the accept loop amounts to *)

(** Does an interrupt arrive among the stimuli? *)
Fixpoint interrupted (incoming : list stimulus) : bool :=
  match incoming with
  | [] => false
  | Interrupt :: _ => true
  | Request _ _ :: rest => interrupted rest
  end.

(** The events of the requests that arrive before the first interrupt,
    handled by [Handler] in working directory [c]. *)
Fixpoint served (P : platform) (g : globals) (c : abspath)
  (incoming : list stimulus) : list event :=
  match incoming with
  | Request m p :: rest =>
      (events_of (Handler_init P g m p) c ++ served P g c rest)%list
  | _ => []
  end.

(** The three lines run_server prints once the listener is up. *)
Definition banner (port : Z) (directory : string) : list event :=
  [Stdout ("Serving files from directory '" ++ directory ++ "'");
   Stdout ("Server started at http://localhost:" ++ str port);
   Stdout "Press Ctrl+C to stop the server."].

(** The value PORT has when the [__main__] block calls run_server
    (lines 47-54). *)
Definition chosen_port (P : platform) (argv : list string) : Z :=
  if (1 <? length argv)%nat then
    match py_int P (nth 1 argv "") with
    | Some n => n
    | None => DEFAULT_PORT
    end
  else DEFAULT_PORT.

(** Does the listener come up on [port]? *)
Definition comes_up (P : platform) (port : Z) : bool :=
  negb ((port <? 0) || (65535 <? port))
  && match os_bind P port with
     | Some _ => false
     | None => true
     end.

(** The paths of the GET requests among them, in order of arrival. *)
Fixpoint get_paths (incoming : list stimulus) : list string :=
  match incoming with
  | Request GET p :: rest => p :: get_paths rest
  | Request _ _ :: rest => get_paths rest
  | _ => []
  end.

(** A trace without its standard output lines. *)
Fixpoint without_stdout (t : list event) : list event :=
  match t with
  | [] => []
  | Stdout _ :: t' => without_stdout t'
  | e :: t' => e :: without_stdout t'
  end.

(** ** A concrete platform for examples *)

(** Decimal literals with an optional sign. *)
Definition demo_int (s : string) : option Z :=
  match s with
  | String "+" s' => option_map Z.of_int (NilZero.int_of_string s')
  | _ => option_map Z.of_int (NilZero.int_of_string s)
  end.

Definition demo_fs (p : abspath) : option node :=
  match p with
  | ["opt"; "app"] => Some Dir
  | ["opt"; "app"; "README.txt"] => Some (File (list_byte_of_string "hello"))
  | ["opt"; "app"; "setup.py"] => Some (File (list_byte_of_string "import http.server"))
  | ["srv"; "www"] => Some Dir
  | ["srv"; "www"; "notes.txt"] => Some (File (list_byte_of_string "elsewhere"))
  | _ => None
  end.

Definition hex_value (c : ascii) : option nat :=
  let n := nat_of_ascii c in
  (if (48 <=? n) && (n <=? 57) then Some (n - 48)
   else if (65 <=? n) && (n <=? 70) then Some (n - 55)
   else if (97 <=? n) && (n <=? 102) then Some (n - 87)
   else None)%nat.

(** Percent escapes decoded byte by byte. *)
Fixpoint demo_unquote (s : string) : string :=
  match s with
  | EmptyString => ""
  | String c s' =>
      if Ascii.eqb c "%"%char then
        match s' with
        | String a (String b rest) =>
            match hex_value a, hex_value b with
            | Some x, Some y => String (ascii_of_nat (16 * x + y)) (demo_unquote rest)
            | _, _ => String c (demo_unquote s')
            end
        | _ => String c (demo_unquote s')
        end
      else String c (demo_unquote s')
  end.

(** Port 8080 is taken; every other port in range is free. *)
Definition demo : platform :=
  mkPlatform demo_int ["opt"; "app"]
    (fun p => if p =? 8080 then Some "[Errno 98] Address already in use" else None)
    49152 demo_fs
    (fun _ => "text/plain")
    (fun _ _ => list_byte_of_string "<html>listing</html>")
    (fun _ _ => list_byte_of_string "<html>error</html>")
    (fun _ p code => "GET " ++ p ++ " " ++ str code)
    (fun code msg => "code " ++ str code ++ ", message " ++ msg)
    demo_unquote
    (forallb (fun w => negb (has_char (ascii_of_nat 0) w))).

(** * Properties *)

(** ** Worlds and traces *)

Lemma extend_nil (w : world) : extend w [] = w.
Proof. destruct w; unfold extend; simpl; now rewrite app_nil_r. Qed.

Lemma extend_extend (w : world) (a b : list event) :
  extend (extend w a) b = extend w (a ++ b).
Proof. unfold extend; simpl; now rewrite app_assoc. Qed.

Lemma stdout_of_app (a b : list event) :
  stdout_of (a ++ b) = (stdout_of a ++ stdout_of b)%list.
Proof.
  induction a as [|e a IH]; simpl; [reflexivity|].
  destruct e; simpl; now rewrite IH.
Qed.

Lemma responses_of_app (a b : list event) :
  responses_of (a ++ b) = (responses_of a ++ responses_of b)%list.
Proof.
  induction a as [|e a IH]; simpl; [reflexivity|].
  destruct e; simpl; now rewrite IH.
Qed.

(** ** Request paths *)

Lemma append_empty_r (s : string) : s ++ "" = s.
Proof. induction s as [|a s IH]; simpl; [reflexivity | now rewrite IH]. Qed.

Lemma split_on_nonempty (c : ascii) (s : string) : split_on c s <> [].
Proof.
  destruct s as [|a s]; simpl; [discriminate|].
  destruct (Ascii.eqb a c); [discriminate|].
  destruct (split_on c s); discriminate.
Qed.

(** A prefix without the separator stays glued to the first field. *)
Lemma split_on_prefix (c : ascii) (w rest : string) :
  has_char c w = false ->
  split_on c (w ++ rest) =
  match split_on c rest with
  | [] => [w]
  | r :: rs => (w ++ r) :: rs
  end.
Proof.
  induction w as [|a w IH]; simpl; intros H.
  - destruct (split_on c rest) eqn:E; [|reflexivity].
    exfalso; exact (split_on_nonempty c rest E).
  - apply orb_false_iff in H as [Ha Hw].
    rewrite Ha, (IH Hw).
    destruct (split_on c rest); reflexivity.
Qed.

Lemma split_on_url (words : list string) :
  forallb (fun w => negb (has_char slash w)) words = true ->
  split_on slash (url_of words) = "" :: words.
Proof.
  induction words as [|w ws IH]; simpl; intros H; [reflexivity|].
  apply andb_true_iff in H as [Hw Hws].
  apply negb_true_iff in Hw.
  rewrite (split_on_prefix slash w (url_of ws) Hw), (IH Hws).
  now rewrite append_empty_r.
Qed.

Lemma before_absent (c : ascii) (s : string) :
  has_char c s = false -> before c s = s.
Proof.
  induction s as [|a s IH]; simpl; intros H; [reflexivity|].
  apply orb_false_iff in H as [Ha Hs].
  now rewrite Ha, (IH Hs).
Qed.

Lemma has_char_append (c : ascii) (a b : string) :
  has_char c (a ++ b) = has_char c a || has_char c b.
Proof.
  induction a as [|x a IH]; simpl; [reflexivity|].
  now rewrite IH, orb_assoc.
Qed.

Lemma has_char_url (c : ascii) (words : list string) :
  Ascii.eqb slash c = false ->
  forallb (fun w => negb (has_char c w)) words = true ->
  has_char c (url_of words) = false.
Proof.
  intros Hc.
  induction words as [|w ws IH]; intros H; [reflexivity|].
  cbn [forallb] in H.
  apply andb_true_iff in H as [Hw Hws].
  apply negb_true_iff in Hw.
  change (url_of (w :: ws)) with (String slash (w ++ url_of ws)).
  cbn [has_char].
  now rewrite Hc, has_char_append, Hw, (IH Hws).
Qed.

Lemma ends_with_absent (c : ascii) (s : string) :
  has_char c s = false -> ends_with c s = false.
Proof.
  induction s as [|a s IH]; simpl; intros H; [reflexivity|].
  apply orb_false_iff in H as [Ha Hs].
  destruct s; [exact Ha | exact (IH Hs)].
Qed.

Lemma ends_with_append (c : ascii) (a b : string) :
  b <> "" -> ends_with c (a ++ b) = ends_with c b.
Proof.
  intros Hb.
  induction a as [|x a IH]; [reflexivity|].
  change (String x a ++ b) with (String x (a ++ b)).
  simpl.
  destruct (a ++ b) eqn:E; [|exact IH].
  destruct a; simpl in E; [congruence | discriminate].
Qed.

Lemma url_of_nonempty (words : list string) :
  words <> [] -> url_of words <> "".
Proof. destruct words; [congruence | discriminate]. Qed.

Lemma ends_with_url (words : list string) :
  words <> [] ->
  forallb (fun w => negb (w =? "")%string && negb (has_char slash w)) words = true ->
  ends_with slash (url_of words) = false.
Proof.
  induction words as [|w ws IH]; [congruence|].
  intros _ H.
  simpl in H.
  apply andb_true_iff in H as [Hw Hws].
  apply andb_true_iff in Hw as [Hne Hsl].
  apply negb_true_iff in Hne, Hsl.
  apply String.eqb_neq in Hne.
  change (url_of (w :: ws)) with ("/" ++ (w ++ url_of ws)).
  destruct ws as [|w' ws].
  - simpl url_of. rewrite append_empty_r.
    rewrite ends_with_append by exact Hne.
    now apply ends_with_absent.
  - rewrite ends_with_append.
    + rewrite ends_with_append by (apply url_of_nonempty; discriminate).
      apply IH; [discriminate | exact Hws].
    + destruct w; [congruence | discriminate].
Qed.

Lemma walk_names (words : list string) :
  forallb (fun w => negb (w =? "")%string && negb (w =? ".")%string
                    && negb (w =? "..")%string) words = true ->
  forall base, walk base words = (base ++ words)%list.
Proof.
  induction words as [|w ws IH]; simpl; intros H base.
  - now rewrite app_nil_r.
  - apply andb_true_iff in H as [Hw Hws].
    apply andb_true_iff in Hw as [Hw H2].
    apply andb_true_iff in Hw as [H0 H1].
    apply negb_true_iff in H0, H1, H2.
    rewrite H0, H1, H2; simpl.
    rewrite (IH Hws), <- app_assoc.
    reflexivity.
Qed.

Lemma simple_names_weaken (Q : string -> bool) (words : list string) :
  (forall w, simple_name w = true -> Q w = true) ->
  forallb simple_name words = true -> forallb Q words = true.
Proof.
  intros HQ H.
  apply forallb_forall.
  intros w Hin.
  apply HQ.
  now apply (proj1 (forallb_forall _ _) H).
Qed.

Lemma all_chars_absent (f : ascii -> bool) (c : ascii) (w : string) :
  f c = false -> all_chars f w = true -> has_char c w = false.
Proof.
  intros Hc.
  induction w as [|a w IH]; simpl; intros H; [reflexivity|].
  apply andb_true_iff in H as [Ha Hw].
  destruct (Ascii.eqb_spec a c) as [->|_]; [congruence|].
  exact (IH Hw).
Qed.

Lemma simple_name_parts (w : string) :
  simple_name w = true ->
  (w =? "")%string = false /\ (w =? ".")%string = false /\
  (w =? "..")%string = false /\ all_chars unreserved w = true.
Proof.
  unfold simple_name. intros H.
  apply andb_true_iff in H as [H H3].
  apply andb_true_iff in H as [H H2].
  apply andb_true_iff in H as [H0 H1].
  apply negb_true_iff in H0, H1, H2.
  auto.
Qed.

(** A simple name has none of the characters that are special in a
    request path. *)
Lemma simple_name_absent (c : ascii) (w : string) :
  unreserved c = false -> simple_name w = true -> has_char c w = false.
Proof.
  intros Hc Hw.
  apply simple_name_parts in Hw as (_ & _ & _ & Hw).
  exact (all_chars_absent unreserved c w Hc Hw).
Qed.

Lemma simple_names_absent (c : ascii) (words : list string) :
  unreserved c = false -> forallb simple_name words = true ->
  forallb (fun w => negb (has_char c w)) words = true.
Proof.
  intros Hc.
  apply simple_names_weaken.
  intros w Hw.
  now rewrite (simple_name_absent c w Hc Hw).
Qed.

(** The request path of a file with simple names translates back to its
    components: nothing in it is a query, a fragment or an escape. *)
Lemma translate_path_url (P : platform) (words : list string) :
  words <> [] -> forallb simple_name words = true ->
  translate_path P (url_of words) = (words, false).
Proof.
  intros Hne H.
  unfold translate_path, unquote.
  rewrite (before_absent "?"%char)
    by (apply has_char_url; [reflexivity | now apply simple_names_absent]).
  rewrite (before_absent "#"%char)
    by (apply has_char_url; [reflexivity | now apply simple_names_absent]).
  rewrite (has_char_url "%"%char words)
    by (reflexivity || now apply simple_names_absent).
  rewrite split_on_url by now apply simple_names_absent.
  rewrite (ends_with_url words Hne).
  2:{ apply (simple_names_weaken _ _) with (2 := H).
      intros w Hw.
      rewrite (simple_name_absent slash w eq_refl Hw).
      apply simple_name_parts in Hw as (-> & _).
      reflexivity. }
  simpl walk.
  rewrite walk_names; [reflexivity|].
  apply (simple_names_weaken _ _) with (2 := H).
  intros w Hw.
  apply simple_name_parts in Hw as (-> & -> & -> & _).
  reflexivity.
Qed.

Lemma resolve_dot (wd : abspath) : resolve wd DEFAULT_DIRECTORY = wd.
Proof. reflexivity. Qed.

(** ** Framing: request handling only appends events *)

Create HintDb framed.

Lemma framed_ret {A : Type} (a : A) : framed (ret a).
Proof. intros w. unfold events_of, ret; simpl. now rewrite extend_nil. Qed.

Lemma framed_raise {A : Type} (e : exn) : framed (@raise A e).
Proof. intros w. unfold events_of, raise; simpl. now rewrite extend_nil. Qed.

Lemma framed_emit (e : event) : framed (emit e).
Proof. intros w. reflexivity. Qed.

Lemma framed_print (s : string) : framed (print s).
Proof. apply framed_emit. Qed.

Lemma framed_eprint (s : string) : framed (eprint s).
Proof. apply framed_emit. Qed.

Lemma framed_bind {A B : Type} (m : M A) (k : A -> M B) :
  framed m -> (forall a, framed (k a)) -> framed (bind m k).
Proof.
  intros Hm Hk w.
  unfold events_of, bind.
  rewrite (Hm w).
  destruct (m (blank (cwd w))) as [[a|e|] w1] eqn:E; simpl.
  - assert (Hc : cwd w1 = cwd w).
    { pose proof (Hm (blank (cwd w))) as Hb.
      cbn [cwd blank] in Hb.
      rewrite E in Hb.
      apply (f_equal (fun rw => cwd (snd rw))) in Hb.
      exact Hb. }
    rewrite (Hk a (extend w _)), (Hk a w1); simpl.
    rewrite Hc, extend_extend.
    unfold events_of at 1.
    now rewrite E.
  - unfold events_of; rewrite E; reflexivity.
  - unfold events_of; rewrite E; reflexivity.
Qed.

#[local] Hint Resolve framed_ret framed_raise framed_emit framed_print
  framed_eprint framed_bind : framed.

Section Framing.

Variable P : platform.

Lemma framed_send_response (h : handler) (code : Z) :
  framed (send_response P h code).
Proof. apply framed_eprint. Qed.

Lemma framed_send_error (h : handler) (code : Z) (msg : string) :
  framed (send_error P h code msg).
Proof.
  unfold send_error.
  auto using framed_send_response with framed.
Qed.

Lemma framed_send_file (h : handler) (target : abspath) (c : list byte) :
  framed (send_file P h target c).
Proof.
  unfold send_file.
  auto using framed_send_response with framed.
Qed.

Lemma framed_send_head (h : handler) : framed (send_head P h).
Proof.
  intros w.
  unfold events_of, send_head.
  destruct (translate_path P (path h)) as [words trailing].
  cbn [cwd blank].
  set (target := (resolve (cwd w) (directory h) ++ words)%list).
  match goal with
  | |- ?m w = _ => assert (Hm : framed m)
  end.
  { apply framed_bind; [apply framed_emit|]; intros _.
    destruct (fs P target) as [[c|]|].
    - destruct trailing; auto using framed_send_error, framed_send_file.
    - destruct (negb trailing).
      + auto using framed_send_response with framed.
      + destruct (fs P (target ++ ["index.html"])%list) as [[c|]|];
          try apply framed_send_file;
          destruct (fs P (target ++ ["index.htm"])%list) as [[c'|]|];
          auto using framed_send_response, framed_send_file with framed.
    - apply framed_send_error. }
  exact (Hm w).
Qed.

Lemma framed_base_do_GET (h : handler) :
  framed (do_GET (SimpleHTTPRequestHandler P) h).
Proof.
  simpl. unfold SimpleHTTPRequestHandler_do_GET.
  auto using framed_send_head with framed.
Qed.

Lemma framed_base_do_HEAD (h : handler) :
  framed (do_HEAD (SimpleHTTPRequestHandler P) h).
Proof.
  simpl. unfold SimpleHTTPRequestHandler_do_HEAD.
  auto using framed_send_head with framed.
Qed.

Lemma framed_Handler_do_GET (h : handler) : framed (Handler_do_GET P h).
Proof.
  unfold Handler_do_GET.
  auto using framed_base_do_GET with framed.
Qed.

Lemma framed_Handler_init (g : globals) (m : method) (p : string) :
  framed (Handler_init P g m p).
Proof.
  unfold Handler_init, SimpleHTTPRequestHandler_init.
  destruct m; simpl.
  - apply framed_Handler_do_GET.
  - apply (framed_base_do_HEAD (mkHandler (DIRECTORY g) HEAD p)).
  - auto using framed_send_error with framed.
Qed.

Lemma framed_serve_forever (g : globals) (incoming : list stimulus) :
  framed (serve_forever (mkServer (Handler_init P g)) incoming).
Proof.
  induction incoming as [|[m p|] rest IH]; simpl.
  - intros w. unfold events_of; simpl. now rewrite extend_nil.
  - auto using framed_Handler_init with framed.
  - apply framed_raise.
Qed.

End Framing.

(** ** One request *)

Section Requests.

Variable P : platform.

(** The inherited send_head consults the file system once below the
    serving directory and writes log lines to stderr, nothing else. *)
Lemma send_head_events (h : handler) (c : abspath) :
  exists logs hf,
    send_head P h (blank c) =
    (Done hf,
     extend (blank c)
       (Access (resolve c (directory h) ++ fst (translate_path P (path h)))%list
        :: map Stderr logs)).
Proof.
  unfold send_head.
  destruct (translate_path P (path h)) as [words trailing].
  cbn [cwd blank fst].
  set (target := (resolve c (directory h) ++ words)%list).
  unfold bind, emit, send_error, send_file, send_response, eprint, emit, bind, ret.
  destruct (fs P target) as [[ct|]|].
  - destruct trailing.
    + exists [log_error P 404 "File not found"; log_request P (command h) (path h) 404].
      eexists. reflexivity.
    + exists [log_request P (command h) (path h) 200].
      eexists. reflexivity.
  - destruct trailing; cbn [negb].
    + destruct (fs P (target ++ ["index.html"])%list) as [[c1|]|];
        [ exists [log_request P (command h) (path h) 200]; eexists; reflexivity | | ];
        (destruct (fs P (target ++ ["index.htm"])%list) as [[c2|]|];
         exists [log_request P (command h) (path h) 200]; eexists; reflexivity).
    + exists [log_request P (command h) (path h) 301].
      eexists. reflexivity.
  - exists [log_error P 404 "File not found"; log_request P (command h) (path h) 404].
    eexists. reflexivity.
Qed.

Lemma stdout_of_logs (logs : list string) : stdout_of (map Stderr logs) = [].
Proof. induction logs; simpl; auto. Qed.

Lemma responses_of_logs (logs : list string) : responses_of (map Stderr logs) = [].
Proof. induction logs; simpl; auto. Qed.

(** The inherited do_GET: one access, log lines, one response. *)
Lemma base_do_GET_events (h : handler) (c : abspath) :
  exists logs r,
    events_of (do_GET (SimpleHTTPRequestHandler P) h) c =
    (Access (resolve c (directory h) ++ fst (translate_path P (path h)))%list
     :: map Stderr logs ++ [Respond r])%list.
Proof.
  destruct (send_head_events h c) as (logs & hf & E).
  exists logs.
  unfold events_of; simpl.
  unfold SimpleHTTPRequestHandler_do_GET, bind.
  rewrite E.
  eexists. reflexivity.
Qed.

Lemma base_do_HEAD_events (h : handler) (c : abspath) :
  exists logs r,
    events_of (do_HEAD (SimpleHTTPRequestHandler P) h) c =
    (Access (resolve c (directory h) ++ fst (translate_path P (path h)))%list
     :: map Stderr logs ++ [Respond r])%list.
Proof.
  destruct (send_head_events h c) as (logs & hf & E).
  exists logs.
  unfold events_of; simpl.
  unfold SimpleHTTPRequestHandler_do_HEAD, bind.
  rewrite E.
  eexists. reflexivity.
Qed.

(** The override: the printed line, then what the base class does. *)
Lemma Handler_GET_events (g : globals) (p : string) (c : abspath) :
  events_of (Handler_init P g GET p) c =
  Stdout ("Serving file: " ++ p)
  :: events_of (do_GET (SimpleHTTPRequestHandler P) (mkHandler (DIRECTORY g) GET p)) c.
Proof.
  unfold events_of at 1.
  unfold Handler_init, SimpleHTTPRequestHandler_init.
  cbn [do_GET Handler].
  unfold Handler_do_GET, bind, print, emit.
  cbn [path].
  rewrite (framed_base_do_GET P).
  reflexivity.
Qed.

(** Handling a request never raises and never blocks. *)
Lemma Handler_init_done (g : globals) (m : method) (p : string) (c : abspath) :
  fst (Handler_init P g m p (blank c)) = Done tt.
Proof.
  unfold Handler_init, SimpleHTTPRequestHandler_init.
  destruct m.
  - cbn [do_GET Handler].
    unfold Handler_do_GET, bind, print, emit.
    rewrite (framed_base_do_GET P).
    cbn [cwd extend blank do_GET SimpleHTTPRequestHandler].
    destruct (send_head_events (mkHandler (DIRECTORY g) GET p) c) as (l & hf & E).
    unfold SimpleHTTPRequestHandler_do_GET, bind.
    now rewrite E.
  - cbn [do_HEAD Handler SimpleHTTPRequestHandler].
    destruct (send_head_events (mkHandler (DIRECTORY g) HEAD p) c) as (l & hf & E).
    unfold SimpleHTTPRequestHandler_do_HEAD, bind.
    now rewrite E.
  - reflexivity.
Qed.

Lemma Handler_init_run (g : globals) (m : method) (p : string) (w : world) :
  Handler_init P g m p w =
  (Done tt, extend w (events_of (Handler_init P g m p) (cwd w))).
Proof.
  rewrite (framed_Handler_init P g m p w) at 1.
  now rewrite Handler_init_done.
Qed.

(** (C6) For every GET request the handler first prints the line
    "Serving file: <path>" on standard output and then runs the inherited
    file resolution; that resolution prints nothing on standard output and
    sends one response, whatever its status, so the line is printed once
    and whether or not the path resolves. *)
Theorem do_GET_prints_requested_path (g : globals) (p : string) (w : world) :
  exists evs r,
    evs = events_of (do_GET (SimpleHTTPRequestHandler P)
                       (mkHandler (DIRECTORY g) GET p)) (cwd w) /\
    Handler_init P g GET p w =
      (Done tt, extend w (Stdout ("Serving file: " ++ p) :: evs)) /\
    stdout_of (Stdout ("Serving file: " ++ p) :: evs) = ["Serving file: " ++ p] /\
    responses_of evs = [r].
Proof.
  destruct (base_do_GET_events (mkHandler (DIRECTORY g) GET p) (cwd w))
    as (logs & r & E).
  eexists. exists r.
  split; [reflexivity|].
  split; [|split].
  - now rewrite Handler_init_run, Handler_GET_events.
  - rewrite E. simpl.
    now rewrite stdout_of_app, stdout_of_logs.
  - rewrite E. simpl.
    now rewrite responses_of_app, responses_of_logs.
Qed.

(** (C2) For every regular file below the serving directory, with
    components [words] and bytes [content], every GET request whose path
    is a path of that file (the handler translates it to [words], no
    trailing slash) is answered with status 200, a content type guess, the
    length of the file as content length, and the bytes of the file as
    body.  When the components are simple names, the path made of them,
    /w1/.../wn, is such a path.  The serving directory is the handler's
    directory resolved against the working directory. *)
Theorem existing_file_is_served (g : globals) (w : world)
  (words : list string) (content : list byte) :
  fs P (resolve (cwd w) (DIRECTORY g) ++ words)%list = Some (File content) ->
  (forall p,
     translate_path P p = (words, false) ->
     exists evs,
       Handler_init P g GET p w = (Done tt, extend w evs) /\
       responses_of evs =
         [mkResponse 200
            (Some (guess_type P (resolve (cwd w) (DIRECTORY g) ++ words)%list))
            (Some (Z.of_nat (length content))) content]) /\
  (words <> [] -> forallb simple_name words = true ->
   translate_path P (url_of words) = (words, false)).
Proof.
  intros Hfile.
  split; [|apply translate_path_url].
  intros p Hpath.
  exists (events_of (Handler_init P g GET p) (cwd w)).
  split; [apply Handler_init_run|].
  rewrite Handler_GET_events.
  unfold events_of.
  cbn [do_GET SimpleHTTPRequestHandler].
  unfold SimpleHTTPRequestHandler_do_GET, send_head, bind.
  cbn [path directory cwd blank].
  rewrite Hpath.
  unfold emit at 1.
  rewrite Hfile.
  reflexivity.
Qed.

(** The events of a GET request whose path names nothing. *)
Lemma missing_path_events (g : globals) (c : abspath) (p : string) :
  fs P (resolve c (DIRECTORY g) ++ fst (translate_path P p))%list = None ->
  responses_of (events_of (Handler_init P g GET p) c) =
  [mkResponse 404 (Some "text/html;charset=utf-8")
     (Some (Z.of_nat (length (error_page P 404 "File not found"))))
     (error_page P 404 "File not found")].
Proof.
  intros Hnone.
  rewrite Handler_GET_events.
  unfold events_of.
  cbn [do_GET SimpleHTTPRequestHandler].
  unfold SimpleHTTPRequestHandler_do_GET, send_head, bind.
  cbn [path directory cwd blank].
  destruct (translate_path P p) as [words trailing].
  cbn [fst] in Hnone.
  unfold emit at 1.
  rewrite Hnone.
  reflexivity.
Qed.

(** The accept loop takes the next request after the current one is
    handled, in a world that differs only by the events of that request. *)
Lemma serve_forever_step (g : globals) (m : method) (p : string)
  (rest : list stimulus) (w : world) :
  serve_forever (mkServer (Handler_init P g)) (Request m p :: rest) w =
  serve_forever (mkServer (Handler_init P g)) rest
    (extend w (events_of (Handler_init P g m p) (cwd w))).
Proof.
  cbn [serve_forever RequestHandlerClass].
  unfold bind.
  now rewrite Handler_init_run.
Qed.


End Requests.

(** ** The accept loop *)

Lemma serve_forever_run (P : platform) (g : globals)
  (incoming : list stimulus) (w : world) :
  serve_forever (mkServer (Handler_init P g)) incoming w =
  (if interrupted incoming then Raised KeyboardInterrupt else Blocked,
   extend w (served P g (cwd w) incoming)).
Proof.
  revert w.
  induction incoming as [|[m p|] rest IH]; intros w.
  - simpl. now rewrite extend_nil.
  - rewrite serve_forever_step, IH.
    cbn [interrupted served cwd extend].
    now rewrite extend_extend.
  - simpl. unfold raise. now rewrite extend_nil.
Qed.

Lemma interrupted_app (reqs rest : list stimulus) :
  interrupted reqs = false ->
  interrupted (reqs ++ rest) = interrupted rest.
Proof.
  induction reqs as [|[m p|] reqs IH]; simpl; intros H;
    [reflexivity | exact (IH H) | discriminate].
Qed.

Lemma served_until_interrupt (P : platform) (g : globals) (c : abspath)
  (reqs rest : list stimulus) :
  interrupted reqs = false ->
  served P g c (reqs ++ Interrupt :: rest) = served P g c reqs.
Proof.
  induction reqs as [|[m p|] reqs IH]; simpl; intros H;
    [reflexivity | now rewrite (IH H) | discriminate].
Qed.

(** ** run_server and the [__main__] block, case by case *)

Section Startup.

Variable P : platform.
Variable clients : list stimulus.

Lemma run_server_cases (g : globals) (port : Z) (directory : string) (w : world) :
  run_server P clients g port directory w =
  let t0 := (trace w ++ [Chdir (script_dir P); Bind "" port])%list in
  if (port <? 0) || (65535 <? port) then
    (Raised (OverflowError "bind(): port must be 0-65535."),
     mkWorld (script_dir P) (listener w) (t0 ++ [ServerClose]))
  else
    match os_bind P port with
    | Some d =>
        (Done tt,
         mkWorld (script_dir P) (listener w)
           (t0 ++ [ServerClose;
                   Stderr ("Error: Could not start the server on port " ++ str port
                           ++ ". The port might be in use.");
                   Stderr ("Details: " ++ d)]))
    | None =>
        let t1 := (t0 ++ banner port directory
                      ++ served P g (script_dir P) clients)%list in
        if interrupted clients then
          (Done tt,
           mkWorld (script_dir P) None
             (t1 ++ [ServerClose; Stdout (nl ++ "Server stopped.")]))
        else
          (Blocked,
           mkWorld (script_dir P)
             (Some ("", if port =? 0 then ephemeral_port P else port)) t1)
    end.
Proof.
  unfold run_server, try_except, with_server, TCPServer.
  unfold bind at 1. unfold chdir at 1.
  unfold bind at 1. unfold emit at 1.
  cbn zeta.
  destruct ((port <? 0) || (65535 <? port)) eqn:Hrange.
  - unfold bind, emit, raise, extend; simpl.
    now rewrite <- !app_assoc.
  - destruct (os_bind P port) as [d|] eqn:Hbind.
    + unfold bind, emit, raise, eprint, emit, extend; simpl.
      now rewrite <- !app_assoc.
    + unfold bind at 1. unfold print at 1. unfold emit at 1.
      unfold bind at 1. unfold print at 1. unfold emit at 1.
      unfold bind at 1. unfold print at 1. unfold emit at 1.
      rewrite serve_forever_run.
      destruct (interrupted clients);
        unfold server_close, print, emit, extend, banner; simpl;
        now rewrite <- !app_assoc.
Qed.

Lemma main_with_cases (default_port : Z) (default_directory : string)
  (argv : list string) (w : world) :
  main_with P clients default_port default_directory argv w =
  if (1 <? length argv)%nat then
    match py_int P (nth 1 argv "") with
    | Some n =>
        run_server P clients (mkGlobals n default_directory) n default_directory w
    | None =>
        run_server P clients (mkGlobals default_port default_directory)
          default_port default_directory
          (extend w [Stderr "Invalid port number provided. Using default port 8000."])
    end
  else
    run_server P clients (mkGlobals default_port default_directory)
      default_port default_directory w.
Proof.
  unfold main_with, bind at 1.
  destruct (1 <? length argv)%nat; [|reflexivity].
  unfold try_except, int.
  destruct (py_int P (nth 1 argv "")); reflexivity.
Qed.

End Startup.

(** ** Where requests are resolved *)

Lemma no_access_in_logs (logs : list string) (r : response) (target : abspath) :
  ~ In (Access target) (map Stderr logs ++ [Respond r]).
Proof.
  intros H.
  apply in_app_or in H as [H|[H|[]]]; [|discriminate].
  apply in_map_iff in H as (s & Hs & _).
  discriminate.
Qed.

Lemma request_access (P : platform) (g : globals) (m : method) (p : string)
  (c target : abspath) :
  In (Access target) (events_of (Handler_init P g m p) c) ->
  target = (resolve c (DIRECTORY g) ++ fst (translate_path P p))%list.
Proof.
  destruct m as [| |name].
  - rewrite Handler_GET_events.
    destruct (base_do_GET_events P (mkHandler (DIRECTORY g) GET p) c)
      as (logs & r & E).
    rewrite E.
    intros [H|[H|H]]; [discriminate | now injection H |].
    now apply no_access_in_logs in H.
  - unfold Handler_init, SimpleHTTPRequestHandler_init.
    cbn [do_HEAD Handler].
    destruct (base_do_HEAD_events P (mkHandler (DIRECTORY g) HEAD p) c)
      as (logs & r & E).
    rewrite E.
    intros [H|H]; [now injection H |].
    now apply no_access_in_logs in H.
  - unfold events_of; simpl.
    intros [H|[H|[H|[]]]]; discriminate.
Qed.

Lemma served_under_served (P : platform) (g : globals) (c : abspath)
  (incoming : list stimulus) :
  served_under (resolve c (DIRECTORY g)) (served P g c incoming).
Proof.
  intros target.
  induction incoming as [|[m p|] rest IH]; simpl; intros H; try contradiction.
  apply in_app_or in H as [H|H]; [|exact (IH H)].
  apply request_access in H.
  eauto.
Qed.

Lemma served_under_app (root : abspath) (a b : list event) :
  served_under root a -> served_under root b -> served_under root (a ++ b).
Proof.
  intros Ha Hb target H.
  apply in_app_or in H as [H|H]; [exact (Ha _ H) | exact (Hb _ H)].
Qed.

Lemma served_under_quiet (root : abspath) (t : list event) :
  (forall target, ~ In (Access target) t) -> served_under root t.
Proof. intros H target Hin. now destruct (H target). Qed.

(** ** The script as a whole *)

Lemma in_range (port : Z) :
  0 <= port <= 65535 -> (port <? 0) || (65535 <? port) = false.
Proof. intros H. apply orb_false_iff. split; apply Z.ltb_ge; lia. Qed.

Lemma out_of_range (port : Z) :
  port < 0 \/ 65535 < port -> (port <? 0) || (65535 <? port) = true.
Proof. intros [H|H]; apply orb_true_iff; [left|right]; apply Z.ltb_lt; lia. Qed.

(** (C8) When the bind fails with an OSError, run_server writes the error
    line and the details line to the error stream and returns normally:
    nothing is printed on standard output, no request is served, and no
    exception leaves run_server. *)
Theorem bind_failure_is_reported (P : platform) (clients : list stimulus)
  (g : globals) (port : Z) (directory detail : string) (w : world) :
  0 <= port <= 65535 ->
  os_bind P port = Some detail ->
  run_server P clients g port directory w =
  (Done tt,
   mkWorld (script_dir P) (listener w)
     (trace w ++
      [Chdir (script_dir P); Bind "" port; ServerClose;
       Stderr ("Error: Could not start the server on port " ++ str port
               ++ ". The port might be in use.");
       Stderr ("Details: " ++ detail)])).
Proof.
  intros Hrange Hbind.
  rewrite run_server_cases; cbn zeta.
  rewrite (in_range port Hrange), Hbind.
  now rewrite <- app_assoc.
Qed.

(** Port 8080 is taken on the example platform. *)
Lemma bind_failure_is_reported_witness :
  os_bind demo 8080 = Some "[Errno 98] Address already in use" /\
  run_server demo [Request GET "/README.txt"] (mkGlobals 8080 ".") 8080 "."
    (initial ["home"; "user"]) =
  (Done tt,
   mkWorld ["opt"; "app"] None
     [Chdir ["opt"; "app"]; Bind "" 8080; ServerClose;
      Stderr "Error: Could not start the server on port 8080. The port might be in use.";
      Stderr "Details: [Errno 98] Address already in use"]).
Proof.
  split; [reflexivity|].
  apply (bind_failure_is_reported demo [Request GET "/README.txt"]
           (mkGlobals 8080 ".") 8080 "." "[Errno 98] Address already in use"
           (initial ["home"; "user"])).
  - lia.
  - reflexivity.
Defined.

(** (C10) An argument that parses as an integer outside 0..65535 is not
    replaced by the default port: it is handed to the listener, whose
    OverflowError is none of the exceptions run_server catches, so the
    exception reaches the top level and the process ends on it. *)
Theorem out_of_range_port_is_unhandled (P : platform) (clients : list stimulus)
  (caller : abspath) (argv : list string) (p : Z) :
  (1 < length argv)%nat ->
  py_int P (nth 1 argv "") = Some p ->
  p < 0 \/ 65535 < p ->
  run_script P clients caller argv =
  (Crashed (OverflowError "bind(): port must be 0-65535."),
   mkWorld (script_dir P) None
     [Chdir (script_dir P); Bind "" p; ServerClose]).
Proof.
  intros Hlen Hint Hout.
  unfold run_script, main.
  rewrite main_with_cases.
  apply Nat.ltb_lt in Hlen.
  rewrite Hlen, Hint, run_server_cases; cbn zeta.
  now rewrite (out_of_range p Hout).
Qed.

(** python setup.py 70000 *)
Lemma out_of_range_port_is_unhandled_witness :
  run_script demo [Request GET "/README.txt"; Interrupt] ["home"; "user"]
    ["setup.py"; "70000"] =
  (Crashed (OverflowError "bind(): port must be 0-65535."),
   mkWorld ["opt"; "app"] None [Chdir ["opt"; "app"]; Bind "" 70000; ServerClose]).
Proof.
  apply (out_of_range_port_is_unhandled demo _ _ ["setup.py"; "70000"] 70000).
  - simpl; lia.
  - reflexivity.
  - right; lia.
Defined.

(** (C5) When the first argument parses as an integer p with
    1 <= p <= 65535, the first thing the process does is to change
    directory and to bind the address ("", p), the empty host meaning all
    interfaces; when the OS grants the bind, the listener is on ("", p)
    for as long as the server serves. *)
Theorem valid_port_is_bound (P : platform) (clients : list stimulus)
  (caller : abspath) (argv : list string) (p : Z) :
  (1 < length argv)%nat ->
  py_int P (nth 1 argv "") = Some p ->
  1 <= p <= 65535 ->
  (exists rest,
     trace (snd (run_script P clients caller argv)) =
     Chdir (script_dir P) :: Bind "" p :: rest) /\
  (os_bind P p = None -> interrupted clients = false ->
   fst (run_script P clients caller argv) = StillServing /\
   listener (snd (run_script P clients caller argv)) = Some ("", p)).
Proof.
  intros Hlen Hint Hrange.
  unfold run_script, main.
  rewrite main_with_cases.
  apply Nat.ltb_lt in Hlen.
  rewrite Hlen, Hint, run_server_cases; cbn zeta.
  rewrite (in_range p) by lia.
  assert (Hnz : (p =? 0) = false) by (apply Z.eqb_neq; lia).
  split.
  - destruct (os_bind P p); [|destruct (interrupted clients)];
      simpl; eexists; reflexivity.
  - intros Hbind Hserving.
    rewrite Hbind, Hserving; simpl.
    now rewrite Hnz.
Qed.

(** python setup.py 9090 *)
Lemma valid_port_is_bound_witness :
  fst (run_script demo [Request GET "/README.txt"] ["home"; "user"]
         ["setup.py"; "9090"]) = StillServing /\
  listener (snd (run_script demo [Request GET "/README.txt"] ["home"; "user"]
                   ["setup.py"; "9090"])) = Some ("", 9090).
Proof.
  apply (valid_port_is_bound demo [Request GET "/README.txt"] ["home"; "user"]
           ["setup.py"; "9090"] 9090).
  - simpl; lia.
  - reflexivity.
  - lia.
  - reflexivity.
  - reflexivity.
Defined.

(** (C4, as amended) When the first argument is absent, the script takes
    port 8000 and writes no warning; when it is present and does not parse
    as an integer, the script takes port 8000 and writes the warning to the
    error stream.  In both cases startup goes on: run_server is entered
    with port 8000, changes directory and binds ("", 8000). *)
Theorem port_fallback (P : platform) (clients : list stimulus)
  (caller : abspath) (argv : list string) :
  (length argv <= 1)%nat \/ py_int P (nth 1 argv "") = None ->
  let warned :=
    if (1 <? length argv)%nat
    then [Stderr "Invalid port number provided. Using default port 8000."]
    else [] in
  main P clients argv (initial caller) =
    run_server P clients (mkGlobals 8000 DEFAULT_DIRECTORY) 8000 DEFAULT_DIRECTORY
      (extend (initial caller) warned) /\
  exists rest,
    trace (snd (run_script P clients caller argv)) =
    (warned ++ Chdir (script_dir P) :: Bind "" 8000 :: rest)%list.
Proof.
  intros H warned.
  assert (E : main P clients argv (initial caller) =
              run_server P clients (mkGlobals 8000 DEFAULT_DIRECTORY) 8000
                DEFAULT_DIRECTORY (extend (initial caller) warned)).
  { unfold main, warned.
    rewrite main_with_cases.
    destruct (1 <? length argv)%nat eqn:Hlen.
    - destruct H as [H|H].
      + apply Nat.ltb_lt in Hlen. lia.
      + now rewrite H.
    - now rewrite extend_nil. }
  split; [exact E|].
  unfold run_script.
  rewrite E, run_server_cases; cbn zeta.
  change ((8000 <? 0) || (65535 <? 8000)) with false.
  cbv iota.
  destruct (os_bind P 8000); [|destruct (interrupted clients)];
    cbn [snd trace extend initial app];
    rewrite <- !app_assoc; eexists; reflexivity.
Qed.

(** python setup.py http *)
Lemma port_fallback_witness :
  py_int demo (nth 1 ["setup.py"; "http"] "") = None /\
  exists rest,
    trace (snd (run_script demo [] ["home"; "user"] ["setup.py"; "http"])) =
    (Stderr "Invalid port number provided. Using default port 8000."
     :: Chdir ["opt"; "app"] :: Bind "" 8000 :: rest).
Proof.
  split; [reflexivity|].
  apply (port_fallback demo [] ["home"; "user"] ["setup.py"; "http"]).
  right; reflexivity.
Defined.

(** (C4, as stated) With no argument at all the script falls back to port
    8000, and nothing whatsoever is written to the error stream. *)
Lemma no_warning_without_argument :
  (length ["setup.py"] <= 1)%nat /\
  listener (snd (run_script demo [] ["home"; "user"] ["setup.py"])) = Some ("", 8000) /\
  stderr_of (trace (snd (run_script demo [] ["home"; "user"] ["setup.py"]))) = [] /\
  ~ exists text,
      In (Stderr text) (trace (snd (run_script demo [] ["home"; "user"] ["setup.py"]))).
Proof.
  split; [simpl; lia|].
  split; [reflexivity|].
  split; [reflexivity|].
  intros (text & H).
  simpl in H.
  repeat (destruct H as [H|H]; [discriminate H|]).
  exact H.
Qed.

(** The [__main__] block does nothing but choose the port, possibly warn,
    and call run_server. *)
Lemma main_with_enters_run_server (P : platform) (default_port : Z)
  (default_directory : string) (argv : list string) :
  exists port pre,
    (forall e, In e pre -> exists text, e = Stderr text) /\
    forall clients w,
      main_with P clients default_port default_directory argv w =
      run_server P clients (mkGlobals port default_directory) port
        default_directory (extend w pre).
Proof.
  destruct (1 <? length argv)%nat eqn:Hlen;
    [destruct (py_int P (nth 1 argv "")) as [n|] eqn:Hint|].
  - exists n, []. split; [intros e []|].
    intros clients w.
    now rewrite main_with_cases, Hlen, Hint, extend_nil.
  - exists default_port,
      [Stderr "Invalid port number provided. Using default port 8000."].
    split; [intros e [<-|[]]; eauto|].
    intros clients w.
    now rewrite main_with_cases, Hlen, Hint.
  - exists default_port, []. split; [intros e []|].
    intros clients w.
    now rewrite main_with_cases, Hlen, extend_nil.
Qed.

(** A run_server that waits in the accept loop has bound its port and has
    seen no interrupt. *)
Lemma run_server_blocked_inv (P : platform) (reqs : list stimulus)
  (g : globals) (port : Z) (directory : string) (w : world) :
  fst (run_server P reqs g port directory w) = Blocked ->
  0 <= port <= 65535 /\ os_bind P port = None /\ interrupted reqs = false.
Proof.
  rewrite run_server_cases; cbn zeta.
  destruct ((port <? 0) || (65535 <? port)) eqn:Hrange; [discriminate|].
  destruct (os_bind P port); [discriminate|].
  destruct (interrupted reqs); [discriminate|].
  intros _.
  apply orb_false_iff in Hrange as [H0 H1].
  apply Z.ltb_ge in H0, H1.
  repeat split; assumption.
Qed.

Lemma finish_serving {A : Type} (r : result A) :
  finish r = StillServing -> r = Blocked.
Proof. destruct r; simpl; intros H; [discriminate | discriminate | reflexivity]. Qed.

(** (C7) While the server is serving (it sits in the accept loop after the
    requests [reqs]), an interrupt makes the process leave the loop, close
    the listener, print the shutdown notice and end with exit code 0; the
    KeyboardInterrupt does not reach the top level. *)
Theorem interrupt_stops_server (P : platform) (caller : abspath)
  (argv : list string) (reqs rest : list stimulus) :
  fst (run_script P reqs caller argv) = StillServing ->
  run_script P (reqs ++ Interrupt :: rest) caller argv =
  (Exited 0,
   mkWorld (script_dir P) None
     (trace (snd (run_script P reqs caller argv))
      ++ [ServerClose; Stdout (nl ++ "Server stopped.")])).
Proof.
  unfold run_script, main.
  destruct (main_with_enters_run_server P DEFAULT_PORT DEFAULT_DIRECTORY argv)
    as (port & pre & _ & Hmain).
  rewrite !Hmain.
  cbn [fst snd].
  intros Hserving.
  apply finish_serving, run_server_blocked_inv in Hserving
    as (Hrange & Hbind & Hquiet).
  rewrite !run_server_cases; cbn zeta.
  rewrite (in_range port Hrange), Hbind, Hquiet.
  rewrite (interrupted_app reqs (Interrupt :: rest) Hquiet).
  rewrite (served_until_interrupt P _ _ reqs rest Hquiet).
  reflexivity.
Qed.

(** An interrupt after one request; what the environment sends later is
    never read. *)
Lemma interrupt_stops_server_witness :
  fst (run_script demo [Request GET "/README.txt"] ["home"; "user"]
         ["setup.py"; "9090"]) = StillServing /\
  run_script demo ([Request GET "/README.txt"] ++ Interrupt :: [Request GET "/late"])
    ["home"; "user"] ["setup.py"; "9090"] =
  (Exited 0,
   mkWorld ["opt"; "app"] None
     (trace (snd (run_script demo [Request GET "/README.txt"] ["home"; "user"]
                    ["setup.py"; "9090"]))
      ++ [ServerClose; Stdout (nl ++ "Server stopped.")])).
Proof.
  split; [reflexivity|].
  apply (interrupt_stops_server demo ["home"; "user"] ["setup.py"; "9090"]
           [Request GET "/README.txt"] [Request GET "/late"]).
  reflexivity.
Defined.

Lemma stdout_of_stderr_only (pre : list event) :
  (forall e, In e pre -> exists text, e = Stderr text) -> stdout_of pre = [].
Proof.
  induction pre as [|e pre IH]; intros H; [reflexivity|].
  destruct (H e (or_introl eq_refl)) as (text & ->).
  simpl. apply IH.
  intros e' He'. apply H. now right.
Qed.

Lemma responses_of_stderr_only (pre : list event) :
  (forall e, In e pre -> exists text, e = Stderr text) -> responses_of pre = [].
Proof.
  induction pre as [|e pre IH]; intros H; [reflexivity|].
  destruct (H e (or_introl eq_refl)) as (text & ->).
  simpl. apply IH.
  intros e' He'. apply H. now right.
Qed.

(** The [__main__] block calls run_server with the chosen port, after
    at most the warning. *)
Lemma main_chosen (P : platform) (argv : list string) :
  exists pre,
    (forall e, In e pre -> exists text, e = Stderr text) /\
    forall clients w,
      main P clients argv w =
      run_server P clients (mkGlobals (chosen_port P argv) DEFAULT_DIRECTORY)
        (chosen_port P argv) DEFAULT_DIRECTORY (extend w pre).
Proof.
  unfold main, chosen_port.
  destruct (1 <? length argv)%nat eqn:Hlen;
    [destruct (py_int P (nth 1 argv "")) as [n|] eqn:Hint|].
  - exists []. split; [intros e []|].
    intros clients w.
    now rewrite main_with_cases, Hlen, Hint, extend_nil.
  - exists [Stderr "Invalid port number provided. Using default port 8000."].
    split; [intros e [<-|[]]; eauto|].
    intros clients w.
    now rewrite main_with_cases, Hlen, Hint.
  - exists []. split; [intros e []|].
    intros clients w.
    now rewrite main_with_cases, Hlen, extend_nil.
Qed.

(** The decimal numeral [str] writes reads back as the number. *)
Lemma read_decimal_str (n : Z) : read_decimal (str n) = Some n.
Proof.
  unfold read_decimal, str.
  rewrite NilZero.isi.
  - simpl. now rewrite DecimalZ.of_to.
  - destruct n; simpl; try discriminate.
    intros H. injection H as H.
    now apply DecimalPos.Unsigned.to_uint_nonnil in H.
  - destruct n; simpl; try discriminate.
    intros H. injection H as H.
    now apply DecimalPos.Unsigned.to_uint_nonnil in H.
Qed.

(** (C9, as amended) When the listener comes up, the three startup lines
    are printed on standard output right after the bind and before the
    events of any request, and nothing is printed on standard output or
    sent to a client before them: the directory the handler serves
    requests from, the URL http://localhost:<port> where <port> is the
    decimal numeral of the port chosen on the command line and given to
    bind, and the Ctrl+C instruction.  The listener is on that port
    whenever it is not 0; for port 0 it is on the port the OS picked. *)
Theorem startup_banner (P : platform) (clients : list stimulus)
  (caller : abspath) (argv : list string) :
  fst (run_script P [] caller argv) = StillServing ->
  let port := chosen_port P argv in
  (exists pre after,
     trace (snd (run_script P clients caller argv)) =
     (pre
      ++ [Chdir (script_dir P); Bind "" port;
          Stdout ("Serving files from directory '" ++ DEFAULT_DIRECTORY ++ "'");
          Stdout ("Server started at http://localhost:" ++ str port);
          Stdout "Press Ctrl+C to stop the server."]
      ++ served P (mkGlobals port DEFAULT_DIRECTORY) (script_dir P) clients
      ++ after)%list /\
     stdout_of pre = [] /\ responses_of pre = [] /\ responses_of after = []) /\
  read_decimal (str port) = Some port /\
  listener (snd (run_script P [] caller argv)) =
    Some ("", if port =? 0 then ephemeral_port P else port) /\
  (port <> 0 ->
   listener (snd (run_script P [] caller argv)) = Some ("", port)).
Proof.
  unfold run_script.
  destruct (main_chosen P argv) as (pre & Hpre & Hmain).
  rewrite !Hmain.
  cbn [fst snd].
  intros Hserving.
  apply finish_serving, run_server_blocked_inv in Hserving
    as (Hrange & Hbind & _).
  cbv zeta.
  rewrite !run_server_cases; cbn zeta.
  rewrite (in_range _ Hrange), Hbind.
  split; [|split; [apply read_decimal_str | split]].
  - exists pre.
    destruct (interrupted clients).
    + exists [ServerClose; Stdout (nl ++ "Server stopped.")].
      split; [|auto using stdout_of_stderr_only, responses_of_stderr_only].
      unfold banner. cbn [snd trace extend initial app].
      now rewrite <- !app_assoc.
    + exists [].
      split; [|auto using stdout_of_stderr_only, responses_of_stderr_only].
      unfold banner. cbn [snd trace extend initial app].
      now rewrite <- !app_assoc, app_nil_r.
  - reflexivity.
  - intros Hnz.
    apply Z.eqb_neq in Hnz.
    cbn [interrupted snd listener].
    now rewrite Hnz.
Qed.

(** python setup.py 9090, one request, then an interrupt. *)
Lemma startup_banner_witness :
  fst (run_script demo [] ["home"; "user"] ["setup.py"; "9090"]) = StillServing /\
  (exists pre after,
     trace (snd (run_script demo [Request GET "/README.txt"; Interrupt]
                   ["home"; "user"] ["setup.py"; "9090"])) =
     (pre
      ++ [Chdir ["opt"; "app"]; Bind "" 9090;
          Stdout "Serving files from directory '.'";
          Stdout "Server started at http://localhost:9090";
          Stdout "Press Ctrl+C to stop the server."]
      ++ served demo (mkGlobals 9090 ".") ["opt"; "app"]
           [Request GET "/README.txt"; Interrupt]
      ++ after)%list /\
     stdout_of pre = [] /\ responses_of pre = [] /\ responses_of after = []) /\
  read_decimal "9090" = Some 9090 /\
  listener (snd (run_script demo [] ["home"; "user"] ["setup.py"; "9090"])) =
    Some ("", 9090).
Proof.
  split; [reflexivity|].
  pose proof (startup_banner demo [Request GET "/README.txt"; Interrupt]
                ["home"; "user"] ["setup.py"; "9090"] eq_refl)
    as (Htrace & Hread & Hlisten & _).
  split; [exact Htrace|].
  split; [exact Hread | exact Hlisten].
Defined.

(** (C9, as stated) Started with port 0 the listener comes up on the port
    the OS picked, 49152 on the example platform, while the line printed
    as the URL says port 0: it is not the listening URL. *)
Lemma banner_url_is_not_the_listener_for_port_zero :
  fst (run_script demo [] ["home"; "user"] ["setup.py"; "0"]) = StillServing /\
  stdout_of (trace (snd (run_script demo [] ["home"; "user"] ["setup.py"; "0"]))) =
    ["Serving files from directory '.'";
     "Server started at http://localhost:0";
     "Press Ctrl+C to stop the server."] /\
  listener (snd (run_script demo [] ["home"; "user"] ["setup.py"; "0"])) =
    Some ("", 49152).
Proof. repeat split. Qed.

Lemma stderr_only_quiet (pre : list event) (target : abspath) :
  (forall e, In e pre -> exists text, e = Stderr text) ->
  ~ In (Access target) pre.
Proof. intros H Hin. destruct (H _ Hin) as (text & E). discriminate E. Qed.

Ltac no_access :=
  let target := fresh "target" in
  let H := fresh "H" in
  intros target H; simpl in H;
  repeat (destruct H as [H|H]; [discriminate H|]);
  exact H.

(** The accesses of a whole run lie below the handler's directory, taken
    relative to the directory of the script. *)
Lemma run_server_served_under (P : platform) (clients : list stimulus)
  (g : globals) (port : Z) (directory : string) (w : world) :
  served_under (resolve (script_dir P) (DIRECTORY g)) (trace w) ->
  served_under (resolve (script_dir P) (DIRECTORY g))
    (trace (snd (run_server P clients g port directory w))).
Proof.
  intros Hw.
  rewrite run_server_cases; cbn zeta.
  destruct ((port <? 0) || (65535 <? port));
    [|destruct (os_bind P port); [|destruct (interrupted clients)]];
    cbn [snd trace];
    repeat apply served_under_app;
    try exact Hw;
    try apply served_under_served;
    apply served_under_quiet; no_access.
Qed.

(** (C1, as amended) In every invocation the process changes its working
    directory to the directory of the script immediately before it binds
    the listener, and stays there.  Requests are resolved below the
    directory the handler is given, DIRECTORY = DEFAULT_DIRECTORY, taken
    relative to that working directory; for the shipped value "." this is
    the directory of the script itself.  The caller's working directory has
    no influence on the run. *)
Theorem chdir_precedes_bind (P : platform) (clients : list stimulus)
  (default_port : Z) (default_directory : string)
  (caller : abspath) (argv : list string) :
  let w := snd (main_with P clients default_port default_directory argv
                  (initial caller)) in
  (exists pre port post,
     trace w = (pre ++ Chdir (script_dir P) :: Bind "" port :: post)%list /\
     forall e, In e pre -> exists text, e = Stderr text) /\
  cwd w = script_dir P /\
  served_under (resolve (script_dir P) default_directory) (trace w) /\
  resolve (script_dir P) DEFAULT_DIRECTORY = script_dir P /\
  forall caller',
    main_with P clients default_port default_directory argv (initial caller') =
    main_with P clients default_port default_directory argv (initial caller).
Proof.
  destruct (main_with_enters_run_server P default_port default_directory argv)
    as (port & pre & Hpre & Hmain).
  cbv zeta.
  split; [|split; [|split; [|split]]].
  - exists pre, port.
    rewrite Hmain, run_server_cases; cbn zeta.
    destruct ((port <? 0) || (65535 <? port));
      [|destruct (os_bind P port); [|destruct (interrupted clients)]];
      cbn [snd trace extend initial app];
      rewrite <- !app_assoc; eexists; (split; [reflexivity | exact Hpre]).
  - rewrite Hmain, run_server_cases; cbn zeta.
    destruct ((port <? 0) || (65535 <? port));
      [|destruct (os_bind P port); [|destruct (interrupted clients)]];
      reflexivity.
  - rewrite Hmain.
    apply (run_server_served_under P clients (mkGlobals port default_directory)).
    apply served_under_quiet.
    intros target. cbn [trace extend initial app].
    now apply stderr_only_quiet.
  - apply resolve_dot.
  - intros caller'.
    now rewrite !Hmain, !run_server_cases.
Qed.

(** (C1, as stated) With another value of DEFAULT_DIRECTORY the files are
    not served from the directory of the script: with "/srv/www" a file
    outside the installation directory is read and sent. *)
Lemma directory_constant_moves_root :
  In (Respond (mkResponse 200 (Some "text/plain") (Some 9)
                 (list_byte_of_string "elsewhere")))
    (trace (snd (main_with demo [Request GET "/notes.txt"] DEFAULT_PORT "/srv/www"
                   ["setup.py"] (initial ["home"; "user"])))) /\
  ~ served_under (script_dir demo)
      (trace (snd (main_with demo [Request GET "/notes.txt"] DEFAULT_PORT "/srv/www"
                     ["setup.py"] (initial ["home"; "user"])))).
Proof.
  split.
  - simpl. tauto.
  - intros H.
    destruct (H ["srv"; "www"; "notes.txt"]) as (words & E).
    + simpl. tauto.
    + discriminate E.
Qed.

(** ** The theorems on requests at a concrete platform *)

(** GET /%52EADME.txt in /opt/app: the escape is decoded and the file
    README.txt is sent. *)
Lemma existing_file_is_served_witness :
  fs demo (resolve ["opt"; "app"] "." ++ ["README.txt"])%list
    = Some (File (list_byte_of_string "hello")) /\
  translate_path demo "/%52EADME.txt" = (["README.txt"], false) /\
  exists evs,
    Handler_init demo (mkGlobals 9090 ".") GET "/%52EADME.txt"
      (mkWorld ["opt"; "app"] (Some ("", 9090)) []) =
    (Done tt, extend (mkWorld ["opt"; "app"] (Some ("", 9090)) []) evs) /\
    responses_of evs =
      [mkResponse 200 (Some "text/plain") (Some 5)
         (list_byte_of_string "hello")].
Proof.
  split; [reflexivity|].
  split; [reflexivity|].
  apply (proj1 (existing_file_is_served demo (mkGlobals 9090 ".")
                  (mkWorld ["opt"; "app"] (Some ("", 9090)) [])
                  ["README.txt"] (list_byte_of_string "hello") eq_refl)).
  reflexivity.
Defined.


(** The scenario of the specification: started with 9090, a GET for
    /README.txt, whose content is "hello", is answered with 200 and that
    body, and the console shows the path. *)
Example readme_scenario :
  let w := snd (run_script demo [Request GET "/README.txt"] ["home"; "user"]
                  ["setup.py"; "9090"]) in
  listener w = Some ("", 9090) /\
  responses_of (trace w) =
    [mkResponse 200 (Some "text/plain") (Some 5) (list_byte_of_string "hello")] /\
  In "Serving file: /README.txt" (stdout_of (trace w)).
Proof. simpl. repeat split. tauto. Qed.

(** * Further properties of the script *)

(** ** The handler class against its base class *)

Lemma without_stdout_app (a b : list event) :
  without_stdout (a ++ b) = (without_stdout a ++ without_stdout b)%list.
Proof.
  induction a as [|e a IH]; simpl; [reflexivity|].
  destruct e; simpl; now rewrite IH.
Qed.

Lemma without_stdout_logs (logs : list string) :
  without_stdout (map Stderr logs) = map Stderr logs.
Proof. induction logs as [|l logs IH]; simpl; [reflexivity | now rewrite IH]. Qed.

(** The standard output of one request: the line for a GET, nothing for
    any other method. *)
Lemma request_stdout (P : platform) (g : globals) (m : method) (p : string)
  (c : abspath) :
  stdout_of (events_of (Handler_init P g m p) c) =
  match m with
  | GET => ["Serving file: " ++ p]
  | _ => []
  end.
Proof.
  destruct m as [| |name].
  - rewrite Handler_GET_events.
    destruct (base_do_GET_events P (mkHandler (DIRECTORY g) GET p) c)
      as (logs & r & E).
    rewrite E. simpl.
    now rewrite stdout_of_app, stdout_of_logs.
  - unfold Handler_init, SimpleHTTPRequestHandler_init.
    cbn [do_HEAD Handler].
    destruct (base_do_HEAD_events P (mkHandler (DIRECTORY g) HEAD p) c)
      as (logs & r & E).
    rewrite E. simpl.
    now rewrite stdout_of_app, stdout_of_logs.
  - reflexivity.
Qed.

(** (X1) The class Handler differs from its base class, instantiated with
    directory=DIRECTORY, by standard output only: for every method and
    path, the events of Handler without the standard output lines are the
    events of SimpleHTTPRequestHandler, which has no standard output. *)
Theorem Handler_refines_base (P : platform) (g : globals) (m : method)
  (p : string) (c : abspath) :
  without_stdout (events_of (Handler_init P g m p) c) =
    events_of (SimpleHTTPRequestHandler_init P (SimpleHTTPRequestHandler P)
                 (DIRECTORY g) m p) c /\
  stdout_of (events_of (SimpleHTTPRequestHandler_init P (SimpleHTTPRequestHandler P)
                          (DIRECTORY g) m p) c) = [].
Proof.
  destruct m as [| |name].
  - rewrite Handler_GET_events.
    unfold SimpleHTTPRequestHandler_init.
    destruct (base_do_GET_events P (mkHandler (DIRECTORY g) GET p) c)
      as (logs & r & E).
    rewrite E. simpl.
    rewrite without_stdout_app, without_stdout_logs, stdout_of_app, stdout_of_logs.
    split; reflexivity.
  - unfold Handler_init, SimpleHTTPRequestHandler_init.
    cbn [do_HEAD Handler].
    destruct (base_do_HEAD_events P (mkHandler (DIRECTORY g) HEAD p) c)
      as (logs & r & E).
    rewrite E. simpl.
    rewrite without_stdout_app, without_stdout_logs, stdout_of_app, stdout_of_logs.
    split; reflexivity.
  - split; reflexivity.
Qed.

(** ** The accept loop as a whole *)

Lemma stdout_served (P : platform) (g : globals) (c : abspath)
  (incoming : list stimulus) :
  stdout_of (served P g c incoming) =
  map (fun p => "Serving file: " ++ p) (get_paths incoming).
Proof.
  induction incoming as [|[m p|] rest IH]; simpl; try reflexivity.
  rewrite stdout_of_app, request_stdout, IH.
  destruct m; reflexivity.
Qed.

Lemma interrupted_after (reqs rest : list stimulus) :
  interrupted (reqs ++ Interrupt :: rest) = true.
Proof. induction reqs as [|[m p|] reqs IH]; simpl; auto. Qed.

Lemma served_after (P : platform) (g : globals) (c : abspath)
  (reqs rest rest' : list stimulus) :
  served P g c (reqs ++ Interrupt :: rest) = served P g c (reqs ++ Interrupt :: rest').
Proof.
  induction reqs as [|[m p|] reqs IH]; simpl; try reflexivity.
  now rewrite IH.
Qed.

(** ** The process as a whole *)

(** run_server, by whether the listener comes up. *)
Lemma run_server_by_listener (P : platform) (clients : list stimulus)
  (g : globals) (port : Z) (directory : string) (w : world) :
  run_server P clients g port directory w =
  if comes_up P port then
    let t1 := (trace w ++ Chdir (script_dir P) :: Bind "" port
               :: banner port directory ++ served P g (script_dir P) clients)%list in
    if interrupted clients then
      (Done tt,
       mkWorld (script_dir P) None
         (t1 ++ [ServerClose; Stdout (nl ++ "Server stopped.")]))
    else
      (Blocked,
       mkWorld (script_dir P)
         (Some ("", if port =? 0 then ephemeral_port P else port)) t1)
  else
    let t0 := (trace w ++ [Chdir (script_dir P); Bind "" port; ServerClose])%list in
    if (port <? 0) || (65535 <? port) then
      (Raised (OverflowError "bind(): port must be 0-65535."),
       mkWorld (script_dir P) (listener w) t0)
    else
      (Done tt,
       mkWorld (script_dir P) (listener w)
         (t0 ++ match os_bind P port with
                | Some d =>
                    [Stderr ("Error: Could not start the server on port "
                             ++ str port ++ ". The port might be in use.");
                     Stderr ("Details: " ++ d)]
                | None => []
                end)).
Proof.
  rewrite run_server_cases; cbn zeta.
  unfold comes_up.
  destruct ((port <? 0) || (65535 <? port)); cbn [negb andb].
  - now rewrite <- !app_assoc.
  - destruct (os_bind P port).
    + now rewrite <- !app_assoc.
    + destruct (interrupted clients); now rewrite <- !app_assoc.
Qed.

(** (X2) How the process ends, for every command line and every sequence
    of stimuli: it crashes on OverflowError when the chosen port is outside
    0..65535; it exits with code 0 when the bind is refused with an
    OSError and when an interrupt arrives while it serves; otherwise it
    keeps serving.  No other outcome and no other exit code occurs. *)
Theorem exit_status (P : platform) (clients : list stimulus)
  (caller : abspath) (argv : list string) :
  fst (run_script P clients caller argv) =
  let port := chosen_port P argv in
  if (port <? 0) || (65535 <? port) then
    Crashed (OverflowError "bind(): port must be 0-65535.")
  else
    match os_bind P port with
    | Some _ => Exited 0
    | None => if interrupted clients then Exited 0 else StillServing
    end.
Proof.
  unfold run_script.
  destruct (main_chosen P argv) as (pre & _ & Hmain).
  rewrite Hmain, run_server_cases; cbn zeta.
  destruct ((chosen_port P argv <? 0) || (65535 <? chosen_port P argv));
    [reflexivity|].
  destruct (os_bind P (chosen_port P argv)); [reflexivity|].
  destruct (interrupted clients); reflexivity.
Qed.

(** (X3) The process can only crash when a port was given on the command
    line: the argument parses as an integer outside 0..65535 and the
    exception is OverflowError.  With no argument or an unparsable one it
    never crashes, and ValueError, OSError and KeyboardInterrupt never
    reach the top level. *)
Theorem crash_needs_explicit_port (P : platform) (clients : list stimulus)
  (caller : abspath) (argv : list string) (e : exn) :
  fst (run_script P clients caller argv) = Crashed e ->
  (1 < length argv)%nat /\
  e = OverflowError "bind(): port must be 0-65535." /\
  exists p, py_int P (nth 1 argv "") = Some p /\ (p < 0 \/ 65535 < p).
Proof.
  unfold run_script.
  destruct (main_chosen P argv) as (pre & _ & Hmain).
  rewrite Hmain, run_server_cases; cbn zeta.
  destruct ((chosen_port P argv <? 0) || (65535 <? chosen_port P argv)) eqn:Hrange.
  - cbn [fst finish].
    intros H. injection H as <-.
    unfold chosen_port in Hrange.
    destruct (1 <? length argv)%nat eqn:Hlen; [|discriminate Hrange].
    apply Nat.ltb_lt in Hlen.
    destruct (py_int P (nth 1 argv "")) as [p|]; [|discriminate Hrange].
    split; [exact Hlen|]. split; [reflexivity|].
    exists p. split; [reflexivity|].
    apply orb_true_iff in Hrange as [H|H]; apply Z.ltb_lt in H; lia.
  - destruct (os_bind P (chosen_port P argv)); [discriminate|].
    destruct (interrupted clients); discriminate.
Qed.

(** python setup.py -1 *)
Lemma crash_needs_explicit_port_witness :
  fst (run_script demo [] ["home"; "user"] ["setup.py"; "-1"])
    = Crashed (OverflowError "bind(): port must be 0-65535.") /\
  (1 < length ["setup.py"; "-1"])%nat /\
  OverflowError "bind(): port must be 0-65535."
    = OverflowError "bind(): port must be 0-65535." /\
  exists p, py_int demo (nth 1 ["setup.py"; "-1"] "") = Some p /\ (p < 0 \/ 65535 < p).
Proof.
  split; [reflexivity|].
  apply (crash_needs_explicit_port demo [] ["home"; "user"] ["setup.py"; "-1"]).
  reflexivity.
Defined.

(** (X4) The listening socket is open exactly while the process serves:
    whenever the process has ended, by exit or by crash, no listener is
    left, and while it serves the listener is on the port given to bind
    (the ephemeral port when that was 0). *)
Theorem listener_closed_at_exit (P : platform) (clients : list stimulus)
  (caller : abspath) (argv : list string) :
  listener (snd (run_script P clients caller argv)) =
  match fst (run_script P clients caller argv) with
  | StillServing =>
      Some ("", if chosen_port P argv =? 0 then ephemeral_port P
                else chosen_port P argv)
  | _ => None
  end.
Proof.
  unfold run_script.
  destruct (main_chosen P argv) as (pre & _ & Hmain).
  rewrite Hmain, run_server_cases; cbn zeta.
  destruct ((chosen_port P argv <? 0) || (65535 <? chosen_port P argv));
    [reflexivity|].
  destruct (os_bind P (chosen_port P argv)); [reflexivity|].
  destruct (interrupted clients); reflexivity.
Qed.

(** (X5) The standard output of a whole run.  When the listener does not
    come up, nothing at all is printed.  When it does: the three startup
    lines, then one line per GET request in order of arrival (no line for
    HEAD or any other method), then the shutdown notice if and only if an
    interrupt arrived. *)
Theorem console_of_a_run (P : platform) (clients : list stimulus)
  (caller : abspath) (argv : list string) :
  stdout_of (trace (snd (run_script P clients caller argv))) =
  let port := chosen_port P argv in
  if comes_up P port then
    ("Serving files from directory '.'"
     :: ("Server started at http://localhost:" ++ str port)%string
     :: "Press Ctrl+C to stop the server."
     :: map (fun p => "Serving file: " ++ p)%string (get_paths clients)
     ++ (if interrupted clients then [(nl ++ "Server stopped.")%string] else []))%list
  else [].
Proof.
  unfold run_script.
  destruct (main_chosen P argv) as (pre & Hpre & Hmain).
  rewrite Hmain, run_server_by_listener; cbn zeta.
  pose proof (stdout_of_stderr_only pre Hpre) as Hquiet.
  destruct (comes_up P (chosen_port P argv)).
  - destruct (interrupted clients);
      cbn [snd trace extend initial app];
      rewrite !stdout_of_app, Hquiet;
      cbn [app stdout_of banner];
      rewrite ?stdout_of_app, stdout_served;
      [reflexivity | now rewrite app_nil_r].
  - destruct ((chosen_port P argv <? 0) || (65535 <? chosen_port P argv));
      cbn [snd trace extend initial app];
      rewrite !stdout_of_app, Hquiet;
      [reflexivity|].
    destruct (os_bind P (chosen_port P argv)); reflexivity.
Qed.

(** (X6) Of the command line only the first argument is read: the program
    name and whatever follows the first argument have no influence on the
    run. *)
Theorem only_first_argument_is_read (P : platform) (clients : list stimulus)
  (prog prog' arg : string) (more more' : list string) (w : world) :
  main P clients (prog :: arg :: more) w =
  main P clients (prog' :: arg :: more') w.
Proof.
  unfold main.
  now rewrite !main_with_cases.
Qed.

(** (X7) Nothing that arrives after an interrupt is handled: the outcome
    and the whole trace of a run do not depend on what the environment
    delivers after the first interrupt. *)
Theorem nothing_served_after_interrupt (P : platform)
  (reqs rest rest' : list stimulus) (caller : abspath) (argv : list string) :
  run_script P (reqs ++ Interrupt :: rest) caller argv =
  run_script P (reqs ++ Interrupt :: rest') caller argv.
Proof.
  unfold run_script.
  destruct (main_chosen P argv) as (pre & _ & Hmain).
  rewrite !Hmain, !run_server_cases; cbn zeta.
  rewrite !interrupted_after.
  now rewrite (served_after P _ _ reqs rest rest').
Qed.

(** (X9) The [directory] argument of run_server is only printed: for any
    two values the result, the working directory, the listener and every
    event other than standard output lines are the same.  The directory
    requests are served from is the one of the Handler class. *)
Theorem run_server_directory_is_only_printed (P : platform)
  (clients : list stimulus) (g : globals) (port : Z) (d1 d2 : string)
  (w : world) :
  fst (run_server P clients g port d1 w) = fst (run_server P clients g port d2 w) /\
  cwd (snd (run_server P clients g port d1 w))
    = cwd (snd (run_server P clients g port d2 w)) /\
  listener (snd (run_server P clients g port d1 w))
    = listener (snd (run_server P clients g port d2 w)) /\
  without_stdout (trace (snd (run_server P clients g port d1 w)))
    = without_stdout (trace (snd (run_server P clients g port d2 w))).
Proof.
  rewrite !run_server_by_listener; cbn zeta.
  destruct (comes_up P port).
  - destruct (interrupted clients);
      cbn [fst snd cwd listener trace];
      repeat split;
      rewrite !without_stdout_app; reflexivity.
  - destruct ((port <? 0) || (65535 <? port)); repeat split.
Qed.

(** (X10) Asked for port 0, the script prints the URL with port 0 although
    the listener is on the port the OS picked. *)
Theorem port_zero_prints_port_zero (P : platform) (clients : list stimulus)
  (caller : abspath) (argv : list string) :
  (1 < length argv)%nat ->
  py_int P (nth 1 argv "") = Some 0 ->
  os_bind P 0 = None ->
  interrupted clients = false ->
  listener (snd (run_script P clients caller argv)) = Some ("", ephemeral_port P) /\
  nth_error (stdout_of (trace (snd (run_script P clients caller argv)))) 1
    = Some "Server started at http://localhost:0".
Proof.
  intros Hlen Hint Hbind Hquiet.
  unfold run_script, main.
  apply Nat.ltb_lt in Hlen.
  rewrite main_with_cases, Hlen, Hint, run_server_cases; cbn zeta.
  change ((0 <? 0) || (65535 <? 0)) with false.
  cbv iota.
  rewrite Hbind, Hquiet.
  split; reflexivity.
Qed.

(** python setup.py 0 *)
Lemma port_zero_prints_port_zero_witness :
  listener (snd (run_script demo [Request GET "/README.txt"] ["home"; "user"]
                   ["setup.py"; "0"])) = Some ("", 49152) /\
  nth_error (stdout_of (trace (snd (run_script demo [Request GET "/README.txt"]
                                      ["home"; "user"] ["setup.py"; "0"])))) 1
    = Some "Server started at http://localhost:0".
Proof.
  apply (port_zero_prints_port_zero demo [Request GET "/README.txt"]
           ["home"; "user"] ["setup.py"; "0"]).
  - simpl; lia.
  - reflexivity.
  - reflexivity.
  - reflexivity.
Defined.

(** (X11) A first argument that does not parse behaves exactly like no
    argument at all, except for the warning, which is written before
    anything else happens: same outcome, same final state, and the trace
    is the one of the run without arguments after the warning. *)
Theorem bad_argument_is_no_argument (P : platform) (clients : list stimulus)
  (caller : abspath) (prog arg : string) (more : list string) :
  py_int P arg = None ->
  fst (run_script P clients caller (prog :: arg :: more))
    = fst (run_script P clients caller [prog]) /\
  listener (snd (run_script P clients caller (prog :: arg :: more)))
    = listener (snd (run_script P clients caller [prog])) /\
  trace (snd (run_script P clients caller (prog :: arg :: more))) =
    Stderr "Invalid port number provided. Using default port 8000."
    :: trace (snd (run_script P clients caller [prog])).
Proof.
  intros Hint.
  unfold run_script, main.
  rewrite !main_with_cases.
  cbn [length Nat.ltb Nat.leb nth].
  rewrite Hint, !run_server_cases; cbn zeta.
  change ((DEFAULT_PORT <? 0) || (65535 <? DEFAULT_PORT)) with false.
  cbv iota.
  destruct (os_bind P DEFAULT_PORT); [|destruct (interrupted clients)];
    repeat split.
Qed.

(** python setup.py http 1 2 *)
Lemma bad_argument_is_no_argument_witness :
  py_int demo "http" = None /\
  trace (snd (run_script demo [Interrupt] ["home"; "user"] ["setup.py"; "http"; "1"; "2"])) =
    Stderr "Invalid port number provided. Using default port 8000."
    :: trace (snd (run_script demo [Interrupt] ["home"; "user"] ["setup.py"])).
Proof.
  split; [reflexivity|].
  apply (bad_argument_is_no_argument demo [Interrupt] ["home"; "user"]
           "setup.py" "http" ["1"; "2"]).
  reflexivity.
Defined.
